(** * Valido: runtime column validation for Spark DataFrames

    A shallow embedding of [valido/valido_decorators.py] and the properties
    of its three decorators [df_in], [df_out] and [df_log].

    Python values are an inductive type, exceptions are values of [exn],
    a dictionary used as a map is a [gmap], a Python [set] is a [gset], and
    a call that may raise returns an [outcome].  The wrapped function is an
    arbitrary state transformer over a world that holds what it may read and
    write, standard output included. *)

From Stdlib Require Import ZArith String Ascii List.
From stdpp Require Import base option list gmap sets strings.

Local Open Scope string_scope.
Local Open Scope list_scope.

(** ** Python runtime *)

Module Py.

(** A Spark DataFrame as the validator sees it: [df.columns] and
    [df.dtypes].  Both come from the engine and are only read. *)
Record DataFrame := mkDataFrame {
  columns : list string;
  dtypes : list (string * string)
}.

(** The values that flow through the wrappers.  [VObject m c] stands for an
    instance of any other class [c] of module [m]. *)
Inductive value :=
| VNone
| VBool (b : bool)
| VInt (z : Z)
| VStr (s : string)
| VDataFrame (df : DataFrame)
| VObject (modname clsname : string).

Inductive exn :=
| AssertionError (msg : string)
| KeyError (key : string)
| TypeError (msg : string)
| OtherError (cls msg : string).

Inductive outcome (A : Type) :=
| Returns (a : A)
| Raises (e : exn).
Arguments Returns {A} a.
Arguments Raises {A} e.

Definition bind {A B} (o : outcome A) (k : A → outcome B) : outcome B :=
  match o with
  | Returns a => k a
  | Raises e => Raises e
  end.

(** [assert b, msg], in an interpreter that runs assertions. *)
Definition assert (b : bool) (msg : string) : outcome unit :=
  if b then Returns tt else Raises (AssertionError msg).

(** [isinstance(v, DataFrame)] *)
Definition is_dataframe (v : value) : bool :=
  match v with VDataFrame _ => true | _ => false end.

(** [type(v).__name__] *)
Definition type_name (v : value) : string :=
  match v with
  | VNone => "NoneType"
  | VBool _ => "bool"
  | VInt _ => "int"
  | VStr _ => "str"
  | VDataFrame _ => "DataFrame"
  | VObject _ c => c
  end.

(** [str(type(v))] *)
Definition type_repr (v : value) : string :=
  match v with
  | VDataFrame _ => "<class 'pyspark.sql.dataframe.DataFrame'>"
  | VObject m c => "<class '" +:+ m +:+ "." +:+ c +:+ "'>"
  | _ => "<class '" +:+ type_name v +:+ "'>"
  end.

(** [sep.join(l)] *)
Fixpoint join (sep : string) (l : list string) : string :=
  match l with
  | [] => EmptyString
  | [x] => x
  | x :: r => x +:+ sep +:+ join sep r
  end.

Definition squote : ascii := "'"%char.
Definition dquote : ascii := "034"%char.
Definition backslash : ascii := "\"%char.

Fixpoint mem_char (c : ascii) (s : string) : bool :=
  match s with
  | EmptyString => false
  | String d r => Ascii.eqb c d || mem_char c r
  end.

Definition hex_digit (n : nat) : ascii :=
  match n with
  | 0 => "0" | 1 => "1" | 2 => "2" | 3 => "3" | 4 => "4" | 5 => "5"
  | 6 => "6" | 7 => "7" | 8 => "8" | 9 => "9" | 10 => "a" | 11 => "b"
  | 12 => "c" | 13 => "d" | 14 => "e" | _ => "f"
  end%char.

Definition escape_char (q c : ascii) : string :=
  let n := nat_of_ascii c in
  if Ascii.eqb c q || Ascii.eqb c backslash then String backslash (String c EmptyString)
  else if Nat.eqb n 9 then "\t"
  else if Nat.eqb n 10 then "\n"
  else if Nat.eqb n 13 then "\r"
  else if Nat.ltb n 32 || Nat.eqb n 127 then
    "\x" +:+ String (hex_digit (Nat.div n 16)) (String (hex_digit (Nat.modulo n 16)) EmptyString)
  else String c EmptyString.

Fixpoint escape (q : ascii) (s : string) : string :=
  match s with
  | EmptyString => EmptyString
  | String c r => escape_char q c +:+ escape q r
  end.

(** [repr(s)] of a [str]: single quotes unless the text has a single quote
    and no double quote; quote, backslash and control characters escaped.
    The text is taken to be ASCII or the UTF-8 of printable characters,
    whose bytes above 127 are kept; characters beyond ASCII that are not
    printable (a no-break space, say) are escaped by [repr] and not here. *)
Definition repr_str (s : string) : string :=
  let q := if mem_char squote s && negb (mem_char dquote s) then dquote else squote in
  String q (escape q s) +:+ String q EmptyString.

(** [str(l)] of a list of [str] *)
Definition str_list (l : list string) : string :=
  "[" +:+ join ", " (map repr_str l) +:+ "]".

(** [dict(pairs)]: a later pair overrides an earlier one with the same key. *)
Definition dict (pairs : list (string * string)) : gmap string string :=
  fold_left (λ m kv, <[kv.1 := kv.2]> m) pairs ∅.

(** The order in which a [set] of strings is iterated: some enumeration of
    its elements, fixed by the interpreter and not by the program. *)
Class SetIteration := {
  iter : gset string → list string;
  iter_perm : ∀ X, iter X ≡ₚ elements X
}.

End Py.
Export Py.

(** ** Pure checks: outcomes form a monad *)

#[global] Instance outcome_ret : MRet outcome := λ A a, Returns a.
#[global] Instance outcome_bind : MBind outcome := λ A B k o, bind o k.

(** [for x in l: body] *)
Fixpoint for_each {A} (l : list A) (body : A → outcome unit) : outcome unit :=
  match l with
  | [] => Returns tt
  | x :: r => body x ;; for_each r body
  end.

(** [d[k]] *)
Definition getitem {V} (d : gmap string V) (k : string) : outcome V :=
  match d !! k with
  | Some v => Returns v
  | None => Raises (KeyError k)
  end.

(** ** Calls with effects

    A call of a Python function reads and writes the rest of the program.
    The world holds what was printed, one entry per call of [print], and
    everything else in [heap]. *)

Inductive print_arg :=
| PStr (s : string)
| PVal (v : value).

(** One call [print(a, b, ...)]: the [str] of each argument, separated by
    spaces and ended by a newline, goes to standard output. *)
Definition print_call := list print_arg.

Record world (H : Type) := World {
  stdout : list print_call;
  heap : H
}.
Arguments World {H} stdout heap.
Arguments stdout {H} w.
Arguments heap {H} w.

Definition M (H A : Type) : Type := world H → outcome A * world H.

Definition ret {H A} (a : A) : M H A := λ w, (Returns a, w).

Definition lift {H A} (o : outcome A) : M H A := λ w, (o, w).

Definition and_then {H A B} (m : M H A) (k : A → M H B) : M H B :=
  λ w, match m w with
       | (Returns a, w') => k a w'
       | (Raises e, w') => (Raises e, w')
       end.

Definition print {H} (args : list print_arg) : M H unit :=
  λ w, (Returns tt, World (stdout w ++ [args]) (heap w)).

#[global] Instance M_ret {H} : MRet (M H) := λ A a, ret a.
#[global] Instance M_bind {H} : MBind (M H) := λ A B k m, and_then m k.

(** A callable: its [__name__] and what a call with positional and keyword
    arguments does. *)
Record pyfunc (H : Type) := PyFunc {
  fn_name : string;
  fn_call : list value → gmap string value → M H value
}.
Arguments PyFunc {H} fn_name fn_call.
Arguments fn_name {H} p.
Arguments fn_call {H} p args kwargs.

(** [@wraps(func)]: the wrapper takes over the name of [func]. *)
Definition wraps {H} (func : pyfunc H)
    (wrapper : list value → gmap string value → M H value) : pyfunc H :=
  PyFunc (fn_name func) wrapper.

Module Valido.

(** [ColumnsDef = Union[List, Dict]], and what else a caller can pass for
    [columns]: [None] (the default), a tuple or a set of names.  The items
    of a dict are in insertion order; a dict has no two items with one key. *)
Inductive ColumnsDef :=
| CNone
| CList (names : list string)
| CDict (items : list (string * string))
| CTuple (names : list string)
| CSet (names : gset string).

(** [bool(columns)], the test of [if columns:] *)
Definition truthy (columns : ColumnsDef) : bool :=
  match columns with
  | CNone => false
  | CList l | CTuple l => negb (Nat.eqb (length l) 0)
  | CDict d => negb (Nat.eqb (length d) 0)
  | CSet s => negb (Nat.eqb (size s) 0)
  end.

(** [len(columns)] *)
Definition len (columns : ColumnsDef) : outcome nat :=
  match columns with
  | CNone => Raises (TypeError "object of type 'NoneType' has no len()")
  | CList l | CTuple l => Returns (length l)
  | CDict d => Returns (length d)
  | CSet s => Returns (size s)
  end.

(** [set(columns)]; for a dict, the set of its keys *)
Definition set_of (columns : ColumnsDef) : outcome (gset string) :=
  match columns with
  | CNone => Raises (TypeError "'NoneType' object is not iterable")
  | CList l | CTuple l => Returns (list_to_set l)
  | CDict d => Returns (list_to_set d.*1)
  | CSet s => Returns s
  end.

Definition _describe_df (df : DataFrame) (include_dtypes : bool) : string :=
  let result := "columns: " +:+ str_list (columns df) in
  if include_dtypes then
    let readable_dtypes := map snd (dtypes df) in
    result +:+ " with dtypes " +:+ str_list readable_dtypes
  else result.

(** The three [if] statements run one after the other; a failing [assert]
    ends the call with its message. *)
Definition _check_columns `{SetIteration} (df : DataFrame) (columns : ColumnsDef)
    (strict : bool) : outcome unit :=
  match columns with
  | CList names =>
      for_each names (λ column,
        assert (bool_decide (column ∈ Py.columns df))
          ("Column " +:+ column +:+ " missing from DataFrame. Got " +:+ _describe_df df false))
  | _ => Returns tt
  end ;;
  match columns with
  | CDict items =>
      let col_dtype_dict := dict (dtypes df) in
      for_each items (λ '(column, dtype),
        assert (bool_decide (column ∈ Py.columns df))
          ("Column " +:+ column +:+ " missing from DataFrame. Got " +:+ _describe_df df false) ;;
        actual ← getitem col_dtype_dict column;
        assert (String.eqb actual dtype)
          ("Column " +:+ column +:+ " has wrong dtype. Was " +:+ actual
             +:+ ", expected " +:+ dtype))
  | _ => Returns tt
  end ;;
  if strict then
    n ← len columns;
    if Nat.eqb (length (Py.columns df)) n then Returns tt
    else
      specified ← set_of columns;
      Raises (AssertionError
                ("DataFrame contained unexpected column(s): "
                   +:+ join ", " (iter (list_to_set (Py.columns df) ∖ specified))))
  else Returns tt.

(** [if not name] is taken by [None] and by the empty string. *)
Definition _get_parameter (name : option string) (args : list value)
    (kwargs : gmap string value) : outcome value :=
  match name with
  | None | Some EmptyString =>
      match args with
      | [] => Returns VNone
      | arg0 :: _ => Returns arg0
      end
  | Some name => getitem kwargs name
  end.

(** The call [_get_parameter(name, *args, **kwargs)] made by the wrappers:
    [name] is bound by the first positional argument, so a keyword argument
    called [name] is a second value for it and the call raises before the
    body runs. *)
Definition call_get_parameter (name : option string) (args : list value)
    (kwargs : gmap string value) : outcome value :=
  match kwargs !! "name" with
  | Some _ => Raises (TypeError "_get_parameter() got multiple values for argument 'name'")
  | None => _get_parameter name args kwargs
  end.

Section Decorators.
Context {H : Type} `{SetIteration}.

(** [assert isinstance(v, DataFrame), msg]; after it [v] is used as a
    DataFrame. *)
Definition assert_dataframe (v : value) (msg : string) : outcome DataFrame :=
  match v with
  | VDataFrame df => Returns df
  | _ => Raises (AssertionError msg)
  end.

Definition df_out (columns : ColumnsDef) (strict : bool) (func : pyfunc H) : pyfunc H :=
  wraps func (λ args kwargs,
    result ← fn_call func args kwargs;
    df ← lift (assert_dataframe result
                 ("Wrong return type. Expected spark dataframe, got " +:+ type_repr result));
    (if truthy columns then lift (_check_columns df columns strict) else ret tt) ;;
    ret result : M H value).

Definition df_in (name : option string) (columns : ColumnsDef) (strict : bool)
    (func : pyfunc H) : pyfunc H :=
  wraps func (λ args kwargs,
    df ← lift (call_get_parameter name args kwargs);
    df ← lift (assert_dataframe df
                 ("Wrong parameter type. Expected Spark DataFrame, got "
                    +:+ type_name df +:+ " instead."));
    (if truthy columns then lift (_check_columns df columns strict) else ret tt) ;;
    fn_call func args kwargs : M H value).

Definition newline : string := String "010"%char EmptyString.

Definition _log_input (func_name : string) (df : value) (include_dtypes : bool) : M H unit :=
  print [PStr ("log_input" +:+ newline); PVal df] ;;
  match df with
  | VDataFrame d =>
      print [PStr ("Function " +:+ func_name +:+ " parameters contained a DataFrame: "
                     +:+ _describe_df d include_dtypes)]
  | _ => ret tt
  end.

Definition _log_output (func_name : string) (df : value) (include_dtypes : bool) : M H unit :=
  match df with
  | VDataFrame d =>
      print [PStr ("Function " +:+ func_name +:+ " returned a DataFrame: "
                     +:+ _describe_df d include_dtypes)]
  | _ => ret tt
  end.

(** The wrapper's body ends after [_log_output]: it has no [return]
    statement, so a call that completes evaluates to [None]. *)
Definition df_log (name : option string) (include_dtypes : bool) (func : pyfunc H) : pyfunc H :=
  wraps func (λ args kwargs,
    param ← lift (call_get_parameter name args kwargs);
    _log_input (fn_name func) param include_dtypes ;;
    result ← fn_call func args kwargs;
    _log_output (fn_name func) result include_dtypes ;;
    ret VNone : M H value).

End Decorators.

End Valido.

Import Valido.

(** ** Vocabulary of the properties *)

(** The messages of the assertions. *)
Definition missing_msg (column : string) (df : DataFrame) : string :=
  "Column " +:+ column +:+ " missing from DataFrame. Got " +:+ _describe_df df false.

Definition wrong_dtype_msg (column actual dtype : string) : string :=
  "Column " +:+ column +:+ " has wrong dtype. Was " +:+ actual +:+ ", expected " +:+ dtype.

Definition unexpected_msg (surplus : list string) : string :=
  "DataFrame contained unexpected column(s): " +:+ join ", " surplus.

Definition wrong_return_msg (result : value) : string :=
  "Wrong return type. Expected spark dataframe, got " +:+ type_repr result.

Definition wrong_parameter_msg (df : value) : string :=
  "Wrong parameter type. Expected Spark DataFrame, got " +:+ type_name df +:+ " instead.".

(** The diagnostic lines of the logger. *)
Definition input_line (func_name : string) (df : DataFrame) (include_dtypes : bool) : string :=
  "Function " +:+ func_name +:+ " parameters contained a DataFrame: "
    +:+ _describe_df df include_dtypes.

Definition output_line (func_name : string) (df : DataFrame) (include_dtypes : bool) : string :=
  "Function " +:+ func_name +:+ " returned a DataFrame: " +:+ _describe_df df include_dtypes.

(** The parts of [_check_columns]: the test [column in df.columns], the
    body of the loop over a list, the body of the loop over the items of a
    dict, and the strict assertion. *)
Definition has_column (df : DataFrame) (column : string) : bool :=
  bool_decide (column ∈ columns df).

Definition check_name (df : DataFrame) (column : string) : outcome unit :=
  assert (has_column df column) (missing_msg column df).

Definition check_item (df : DataFrame) (col_dtype_dict : gmap string string)
    (item : string * string) : outcome unit :=
  let '(column, dtype) := item in
  assert (has_column df column) (missing_msg column df) ;;
  actual ← getitem col_dtype_dict column;
  assert (String.eqb actual dtype) (wrong_dtype_msg column actual dtype).

Definition check_strict `{SetIteration} (df : DataFrame) (columns : ColumnsDef) : outcome unit :=
  n ← len columns;
  if Nat.eqb (length (Py.columns df)) n then Returns tt
  else
    specified ← set_of columns;
    Raises (AssertionError (unexpected_msg (iter (list_to_set (Py.columns df) ∖ specified)))).

(** What one item of a dict specification asks of the DataFrame: the
    column is there and the dtype found for it is the expected string. *)
Definition item_holds (df : DataFrame) (item : string * string) : Prop :=
  item.1 ∈ Py.columns df ∧ dict (dtypes df) !! item.1 = Some item.2.

(** The strict failure: an [AssertionError] whose message lists the names
    of [surplus] in some order. *)
Definition fails_unexpected (o : outcome unit) (surplus : gset string) : Prop :=
  ∃ l, l ≡ₚ elements surplus ∧ o = Raises (AssertionError (unexpected_msg l)).

(** A list of names, or a dict, in which no name occurs twice. *)
Definition without_repeats (columns : ColumnsDef) : Prop :=
  match columns with
  | CList names => NoDup names
  | CDict items => NoDup items.*1
  | _ => False
  end.

(** A name counts as given when [if not name] is not taken. *)
Definition name_given (name : option string) : bool :=
  match name with
  | Some (String _ _) => true
  | _ => false
  end.

(** [args[0]], or [None] for a call without positional arguments. *)
Definition first_positional (args : list value) : value :=
  match args with
  | [] => VNone
  | arg0 :: _ => arg0
  end.

(** The tuples and sets: containers that are neither a list nor a dict. *)
Definition other_container (columns : ColumnsDef) : bool :=
  match columns with
  | CTuple _ | CSet _ => true
  | _ => false
  end.

(** Recording the calls a function receives: [traced f] behaves as [f] and
    appends the arguments of every call to a log kept next to the heap. *)
Definition call_record : Type := list value * gmap string value.

Definition traced {H} (f : pyfunc H) : pyfunc (list call_record * H) :=
  PyFunc (fn_name f) (λ args kwargs w,
    let '(o, w') := fn_call f args kwargs (World (stdout w) (heap w).2) in
    (o, World (stdout w') ((heap w).1 ++ [(args, kwargs)], heap w'))).

Definition calls {H} (w : world (list call_record * H)) : list call_record :=
  (heap w).1.



(** What [_log_input] prints first, whatever the value. *)
Definition debug_dump (v : value) : print_call :=
  [PStr ("log_input" +:+ newline); PVal v].

(** The diagnostic line of each side, printed for a DataFrame only. *)
Definition input_lines (func_name : string) (v : value) (include_dtypes : bool)
    : list print_call :=
  match v with
  | VDataFrame d => [[PStr (input_line func_name d include_dtypes)]]
  | _ => []
  end.

Definition output_lines (func_name : string) (v : value) (include_dtypes : bool)
    : list print_call :=
  match v with
  | VDataFrame d => [[PStr (output_line func_name d include_dtypes)]]
  | _ => []
  end.

(** The column check as the wrappers gate it: [if columns: ...]. *)
Definition gated_check `{SetIteration} (df : DataFrame) (columns : ColumnsDef)
    (strict : bool) : outcome unit :=
  if truthy columns then _check_columns df columns strict else Returns tt.

(** The engine derives [df.columns] and [df.dtypes] from one schema: the
    column names are the names of the dtype pairs, in order. *)
Definition consistent (df : DataFrame) : Prop :=
  Py.columns df = (dtypes df).*1.

(** Characters that [repr] writes as they are inside single quotes:
    printable ASCII other than the quotes and the backslash. *)
Definition plain_char (c : ascii) : bool :=
  let n := nat_of_ascii c in
  Nat.leb 32 n && Nat.ltb n 127
  && negb (Ascii.eqb c squote) && negb (Ascii.eqb c dquote)
  && negb (Ascii.eqb c backslash).

Fixpoint plain (s : string) : bool :=
  match s with
  | EmptyString => true
  | String c r => plain_char c && plain r
  end.

Definition quoted (s : string) : string :=
  String squote s +:+ String squote EmptyString.

(** ** The fixtures of the test suite *)

(** One interpreter: sets iterate in the order of [elements]. *)
Definition elements_order : SetIteration :=
  {| iter := elements; iter_perm := λ X, reflexivity (elements X) |}.

Definition basic_df : DataFrame :=
  mkDataFrame ["Brand"; "Price"] [("Brand", "string"); ("Price", "int")].

Definition extended_df : DataFrame :=
  mkDataFrame ["Brand"; "Price"; "Year"]
    [("Brand", "string"); ("Price", "int"); ("Year", "int")].

(** A join that keeps the key of both sides: two columns of one name. *)
Definition joined_df : DataFrame :=
  mkDataFrame ["id"; "id"] [("id", "int"); ("id", "string")].

(** The fixtures are called below with arguments their signatures accept.

    [def test_fn(foo_df): return basic_df] *)
Definition test_fn : pyfunc unit :=
  PyFunc "test_fn" (λ _ _, ret (VDataFrame basic_df)).

(** [def identity(my_input): return my_input] *)
Definition identity : pyfunc unit :=
  PyFunc "identity" (λ args kwargs,
    match args with
    | arg0 :: _ => ret arg0
    | [] => lift (getitem kwargs "my_input")
    end).

(** [def by_name(name): return name] *)
Definition by_name : pyfunc unit :=
  PyFunc "by_name" (λ args kwargs,
    match args with
    | arg0 :: _ => ret arg0
    | [] => lift (getitem kwargs "name")
    end).

(** [def returns_one(): return 1] *)
Definition returns_one : pyfunc unit :=
  PyFunc "returns_one" (λ _ _, ret (VInt 1)).

Definition start : world unit := World [] tt.

(** * Properties *)

(** ** The loops of the checker *)

Section Loops.
Context {A : Type}.
Implicit Types (l : list A) (body : A → outcome unit).

Lemma outcome_unit_eta (o : outcome unit) :
  o = Returns tt ∨ ∃ e, o = Raises e.
Proof. destruct o as [[]|e]; eauto. Qed.

Lemma for_each_cons x l body :
  for_each (x :: l) body = bind (body x) (λ _, for_each l body).
Proof. reflexivity. Qed.

Lemma for_each_ok l body :
  for_each l body = Returns tt ↔ Forall (λ x, body x = Returns tt) l.
Proof.
  induction l as [|x l IH]; [by split; constructor|].
  rewrite for_each_cons, Forall_cons, <- IH.
  destruct (outcome_unit_eta (body x)) as [-> | [e ->]]; simpl; [tauto|].
  split; [discriminate | intros [? _]; discriminate].
Qed.

Lemma for_each_first_failure before x after body e :
  Forall (λ y, body y = Returns tt) before →
  body x = Raises e →
  for_each (before ++ x :: after) body = Raises e.
Proof.
  intros Hbefore Hx. induction Hbefore as [|y l Hy _ IH]; cbn [app].
  - rewrite for_each_cons, Hx. reflexivity.
  - rewrite for_each_cons, Hy. exact IH.
Qed.

(** A loop that raises does so at some first item, after a prefix whose
    items all pass. *)
Lemma for_each_failure_inv l body e :
  for_each l body = Raises e →
  ∃ before x after,
    l = before ++ x :: after ∧
    Forall (λ y, body y = Returns tt) before ∧ body x = Raises e.
Proof.
  induction l as [|x l IH]; [discriminate|].
  rewrite for_each_cons.
  destruct (outcome_unit_eta (body x)) as [Hx | [e' Hx]]; rewrite Hx; simpl.
  - intros (before & y & after & -> & Hb & Hy)%IH.
    exists (x :: before), y, after. split; [done|]. split; [by constructor | done].
  - intros [= ->]. exists [], x, l. split; [done|]. split; [constructor | done].
Qed.

End Loops.

Section Checker.
Context `{SetIteration}.
Implicit Types (df : DataFrame) (columns : ColumnsDef).

Lemma has_column_true df c : has_column df c = true ↔ c ∈ Py.columns df.
Proof. unfold has_column. apply bool_decide_eq_true. Qed.

Lemma has_column_false df c : has_column df c = false ↔ c ∉ Py.columns df.
Proof. unfold has_column. apply bool_decide_eq_false. Qed.

Lemma check_name_ok df c : check_name df c = Returns tt ↔ c ∈ Py.columns df.
Proof.
  unfold check_name, assert. rewrite <- has_column_true.
  destruct (has_column df c); split; congruence.
Qed.

Lemma check_name_missing df c :
  c ∉ Py.columns df → check_name df c = Raises (AssertionError (missing_msg c df)).
Proof.
  intros Hc%has_column_false. unfold check_name, assert. by rewrite Hc.
Qed.

Lemma check_item_ok df item :
  check_item df (dict (dtypes df)) item = Returns tt ↔ item_holds df item.
Proof.
  destruct item as [c t]. unfold check_item, item_holds, assert, getitem. simpl.
  rewrite <- has_column_true.
  destruct (has_column df c); simpl; [|split; [discriminate | intros [? _]; discriminate]].
  destruct (dict (dtypes df) !! c) as [a|]; simpl;
    [|split; [discriminate | intros [_ ?]; discriminate]].
  destruct (String.eqb_spec a t) as [->|Hne]; split; try done.
  - intros [_ [= ?]]. contradiction.
Qed.

Lemma check_item_missing df m c t :
  c ∉ Py.columns df →
  check_item df m (c, t) = Raises (AssertionError (missing_msg c df)).
Proof.
  intros Hc%has_column_false. unfold check_item, assert. by rewrite Hc.
Qed.

Lemma check_item_wrong_dtype df m c t a :
  c ∈ Py.columns df → m !! c = Some a → a ≠ t →
  check_item df m (c, t) = Raises (AssertionError (wrong_dtype_msg c a t)).
Proof.
  intros Hc%has_column_true Ha Hne%String.eqb_neq.
  unfold check_item, assert, getitem. rewrite Hc, Ha. simpl. by rewrite Hne.
Qed.

Lemma check_columns_unfold df columns strict :
  _check_columns df columns strict =
  bind (match columns with
        | CList names => for_each names (check_name df)
        | _ => Returns tt
        end)
    (λ _, bind (match columns with
                | CDict items => for_each items (check_item df (dict (dtypes df)))
                | _ => Returns tt
                end)
            (λ _, if strict then check_strict df columns else Returns tt)).
Proof. reflexivity. Qed.

(** Without [strict] the checker is the loop of its branch. *)
Lemma check_columns_list df names :
  _check_columns df (CList names) false = for_each names (check_name df).
Proof.
  rewrite check_columns_unfold.
  by destruct (outcome_unit_eta (for_each names (check_name df))) as [-> | [e ->]].
Qed.

Lemma check_columns_dict df items :
  _check_columns df (CDict items) false =
  for_each items (check_item df (dict (dtypes df))).
Proof.
  rewrite check_columns_unfold. simpl.
  by destruct (outcome_unit_eta (for_each items (check_item df (dict (dtypes df)))))
    as [-> | [e ->]].
Qed.

(** The presence and dtype loops do not look at [strict]; when they pass,
    the strict assertion decides. *)
Lemma check_columns_strict df columns :
  _check_columns df columns false = Returns tt →
  _check_columns df columns true = check_strict df columns.
Proof.
  rewrite !check_columns_unfold.
  destruct columns; simpl; try done.
  - destruct (outcome_unit_eta (for_each names (check_name df))) as [-> | [e ->]]; done.
  - destruct (outcome_unit_eta (for_each items (check_item df (dict (dtypes df)))))
      as [-> | [e ->]]; done.
Qed.

Lemma check_columns_raises_early df columns strict e :
  _check_columns df columns false = Raises e →
  _check_columns df columns strict = Raises e.
Proof.
  rewrite !check_columns_unfold.
  destruct columns; simpl; try done.
  - destruct (outcome_unit_eta (for_each names (check_name df))) as [-> | [e' ->]]; done.
  - destruct (outcome_unit_eta (for_each items (check_item df (dict (dtypes df)))))
      as [-> | [e' ->]]; done.
Qed.

End Checker.

(** ** The column contract checker *)

Section Contract.
Context `{SetIteration}.
Implicit Types (df : DataFrame) (columns : ColumnsDef).

Lemma check_strict_eq df columns n :
  len columns = Returns n → length (Py.columns df) = n →
  check_strict df columns = Returns tt.
Proof.
  intros Hlen <-. unfold check_strict. rewrite Hlen. simpl.
  by rewrite Nat.eqb_refl.
Qed.

Lemma check_strict_neq df columns n :
  len columns = Returns n → length (Py.columns df) ≠ n →
  ∃ specified, set_of columns = Returns specified ∧
    check_strict df columns =
      Raises (AssertionError
                (unexpected_msg (iter (list_to_set (Py.columns df) ∖ specified)))).
Proof.
  intros Hlen Hne%Nat.eqb_neq. unfold check_strict. rewrite Hlen. simpl.
  rewrite Hne. destruct columns; try discriminate; simpl; eauto.
Qed.

Lemma fails_unexpected_iter surplus :
  fails_unexpected (Raises (AssertionError (unexpected_msg (iter surplus)))) surplus.
Proof. exists (iter surplus). split; [apply iter_perm | reflexivity]. Qed.

Lemma names_present_length df names :
  NoDup names → Forall (λ c, c ∈ Py.columns df) names →
  (length names ≤ length (Py.columns df))%nat.
Proof.
  intros Hnd Hall. apply submseteq_length, NoDup_submseteq; [done|].
  by apply Forall_forall.
Qed.

Lemma passing_without_repeats_length df columns n :
  without_repeats columns → len columns = Returns n →
  _check_columns df columns false = Returns tt →
  (n ≤ length (Py.columns df))%nat.
Proof.
  destruct columns as [|names|items|names|names]; simpl; try done.
  - intros Hnd [= <-]. rewrite check_columns_list, for_each_ok.
    intros Hall. apply names_present_length; [done|].
    eapply Forall_impl; [exact Hall|]. intros c. by rewrite check_name_ok.
  - intros Hnd [= <-]. rewrite check_columns_dict, for_each_ok.
    intros Hall. rewrite <- (length_fmap fst items).
    apply names_present_length; [done|].
    apply Forall_fmap. eapply Forall_impl; [exact Hall|].
    intros item Hitem%check_item_ok. apply Hitem.
Qed.

(** C2, as the code has it.  Once the presence and dtype checks pass, the
    strict check fails with the unexpected-columns message exactly when the
    number of actual columns differs from the number of specified ones;
    for a list or dict without repeated names that is exactly when the
    actual count is the larger.  For a proper subset of the columns given
    as a list without repeats, the strict check fails and its message
    lists exactly the columns outside the subset. *)
Theorem strict_fails_on_count_mismatch df :
  (∀ columns n,
     len columns = Returns n →
     _check_columns df columns false = Returns tt →
     ((∃ surplus, fails_unexpected (_check_columns df columns true) surplus)
        ↔ length (Py.columns df) ≠ n)
     ∧ (length (Py.columns df) = n → _check_columns df columns true = Returns tt)
     ∧ (length (Py.columns df) ≠ n →
          ∃ specified, set_of columns = Returns specified ∧
            fails_unexpected (_check_columns df columns true)
              (list_to_set (Py.columns df) ∖ specified))
     ∧ (without_repeats columns →
          ((∃ surplus, fails_unexpected (_check_columns df columns true) surplus)
             ↔ (n < length (Py.columns df))%nat)))
  ∧ (∀ names,
       NoDup names →
       (list_to_set names : gset string) ⊂ list_to_set (Py.columns df) →
       _check_columns df (CList names) false = Returns tt
       ∧ fails_unexpected (_check_columns df (CList names) true)
           (list_to_set (Py.columns df) ∖ list_to_set names)).
Proof.
  split.
  - intros columns n Hlen Hpass.
    rewrite (check_columns_strict _ _ Hpass).
    assert ((∃ surplus, fails_unexpected (check_strict df columns) surplus)
              ↔ length (Py.columns df) ≠ n) as Hiff.
    { split.
      - intros (surplus & l & _ & Hfail) Heq.
        rewrite (check_strict_eq _ _ _ Hlen Heq) in Hfail. discriminate.
      - intros Hne. destruct (check_strict_neq _ _ _ Hlen Hne) as (S & _ & ->).
        eexists. apply fails_unexpected_iter. }
    split; [exact Hiff|]. split; [by apply check_strict_eq|]. split.
    { intros Hne. destruct (check_strict_neq _ _ _ Hlen Hne) as (S & HS & ->).
      exists S. split; [exact HS | apply fails_unexpected_iter]. }
    intros Hnr. rewrite Hiff.
    pose proof (passing_without_repeats_length _ _ _ Hnr Hlen Hpass). lia.
  - intros names Hnd Hsub.
    assert (Forall (λ c, c ∈ Py.columns df) names) as Hall.
    { apply Forall_forall. intros c Hc.
      apply (elem_of_list_to_set (C:=gset string)).
      apply Hsub. by apply elem_of_list_to_set. }
    assert (_check_columns df (CList names) false = Returns tt) as Hpass.
    { rewrite check_columns_list, for_each_ok.
      eapply Forall_impl; [exact Hall|]. intros c. by rewrite check_name_ok. }
    split; [exact Hpass|].
    rewrite (check_columns_strict _ _ Hpass).
    assert (length (Py.columns df) ≠ length names) as Hne.
    { intros Heq.
      assert (names ≡ₚ Py.columns df) as Hperm.
      { apply submseteq_length_Permutation; [|lia].
        apply NoDup_submseteq; [done|]. by apply Forall_forall. }
      destruct Hsub as [_ Hnot]. apply Hnot. intros c.
      rewrite !elem_of_list_to_set. by rewrite Hperm. }
    destruct (check_strict_neq df (CList names) _ eq_refl Hne) as (S & [= <-] & ->).
    apply fails_unexpected_iter.
Qed.

(** C3.  A dict specification passes exactly when every item's column is
    among the columns and the dtype recorded for it is the expected string,
    character for character.  The first item whose column is there with
    another dtype fails the check with the wrong-dtype message, which names
    the column, the actual and the expected dtype. *)
Theorem dtype_mapping_checked df items :
  (_check_columns df (CDict items) false = Returns tt ↔ Forall (item_holds df) items)
  ∧ (∀ strict before column dtype after actual,
       items = before ++ (column, dtype) :: after →
       Forall (item_holds df) before →
       column ∈ Py.columns df →
       dict (dtypes df) !! column = Some actual →
       actual ≠ dtype →
       _check_columns df (CDict items) strict =
         Raises (AssertionError
                   ("Column " +:+ column +:+ " has wrong dtype. Was " +:+ actual
                      +:+ ", expected " +:+ dtype))).
Proof.
  split.
  - rewrite check_columns_dict, for_each_ok.
    split; intros Hall; (eapply Forall_impl; [exact Hall|]);
      intros item; by rewrite check_item_ok.
  - intros strict before column dtype after actual -> Hbefore Hin Hactual Hne.
    apply check_columns_raises_early. rewrite check_columns_dict.
    apply for_each_first_failure.
    + eapply Forall_impl; [exact Hbefore|]. intros item. by rewrite check_item_ok.
    + by apply check_item_wrong_dtype.
Qed.

(** C9.  The loops stop at the first failing item: the exception is the
    one of that item, whatever follows it in the specification and whether
    or not the call is strict; and every failure of a loop is the failure
    of one item, the first that does not pass. *)
Theorem check_columns_short_circuit df :
  (∀ strict before column after,
     Forall (λ c, c ∈ Py.columns df) before →
     column ∉ Py.columns df →
     _check_columns df (CList (before ++ column :: after)) strict =
       Raises (AssertionError (missing_msg column df)))
  ∧ (∀ strict before item after e,
       Forall (item_holds df) before →
       check_item df (dict (dtypes df)) item = Raises e →
       _check_columns df (CDict (before ++ item :: after)) strict = Raises e)
  ∧ (∀ names e,
       _check_columns df (CList names) false = Raises e →
       ∃ before column after,
         names = before ++ column :: after ∧
         Forall (λ c, c ∈ Py.columns df) before ∧
         (column ∉ Py.columns df) ∧
         e = AssertionError (missing_msg column df))
  ∧ (∀ items e,
       _check_columns df (CDict items) false = Raises e →
       ∃ before item after,
         items = before ++ item :: after ∧
         Forall (item_holds df) before ∧
         check_item df (dict (dtypes df)) item = Raises e).
Proof.
  split; [|split; [|split]].
  - intros strict before column after Hbefore Hmissing.
    apply check_columns_raises_early. rewrite check_columns_list.
    apply for_each_first_failure.
    + eapply Forall_impl; [exact Hbefore|]. intros c. by rewrite check_name_ok.
    + by apply check_name_missing.
  - intros strict before item after e Hbefore Hitem.
    apply check_columns_raises_early. rewrite check_columns_dict.
    apply for_each_first_failure; [|done].
    eapply Forall_impl; [exact Hbefore|]. intros i. by rewrite check_item_ok.
  - intros names e. rewrite check_columns_list.
    intros (before & column & after & -> & Hbefore & Hcol)%for_each_failure_inv.
    exists before, column, after. split; [done|].
    assert (column ∉ Py.columns df) as Hmissing.
    { intros Hin%check_name_ok. congruence. }
    split; [|split; [done|]].
    + eapply Forall_impl; [exact Hbefore|]. intros c. by rewrite check_name_ok.
    + rewrite (check_name_missing _ _ Hmissing) in Hcol. congruence.
  - intros items e. rewrite check_columns_dict.
    intros (before & item & after & -> & Hbefore & Hitem)%for_each_failure_inv.
    exists before, item, after. split; [done|]. split; [|done].
    eapply Forall_impl; [exact Hbefore|]. intros i. by rewrite check_item_ok.
Qed.

(** A tuple or a set of names goes through neither loop: without
    [strict] every DataFrame passes, whatever the names; with [strict] the
    call fails with the unexpected-columns message exactly when the number
    of columns differs from the length of the specification. *)
Lemma other_container_only_counted df columns n :
  other_container columns = true →
  len columns = Returns n →
  _check_columns df columns false = Returns tt
  ∧ (length (Py.columns df) = n → _check_columns df columns true = Returns tt)
  ∧ (length (Py.columns df) ≠ n →
       ∃ specified, set_of columns = Returns specified ∧
         _check_columns df columns true =
           Raises (AssertionError
                     (unexpected_msg (iter (list_to_set (Py.columns df) ∖ specified))))).
Proof.
  intros Hother Hlen.
  assert (_check_columns df columns false = Returns tt) as Hpass.
  { by destruct columns. }
  split; [exact Hpass|].
  rewrite (check_columns_strict _ _ Hpass). split.
  - by apply check_strict_eq.
  - by apply check_strict_neq.
Qed.

End Contract.

(** ** The parameter resolver *)

(** The body of the resolver.  With no name given (none, or the empty
    string) it returns the first positional argument, and [None] when there is no
    positional argument; with a name it returns the keyword argument of
    that name, and raises the [KeyError] of the failed lookup when the
    keyword is absent. *)
Theorem get_parameter_resolves (name : option string) (args : list value)
    (kwargs : gmap string value) :
  (name_given name = false →
     _get_parameter name args kwargs = Returns (first_positional args)
     ∧ (args = [] → _get_parameter name args kwargs = Returns VNone)
     ∧ (∀ arg0 rest, args = arg0 :: rest →
          _get_parameter name args kwargs = Returns arg0))
  ∧ (∀ s, name = Some s → name_given name = true →
       (∀ v, kwargs !! s = Some v → _get_parameter name args kwargs = Returns v)
       ∧ (kwargs !! s = None → _get_parameter name args kwargs = Raises (KeyError s))).
Proof.
  split.
  - intros Hname.
    assert (_get_parameter name args kwargs = Returns (first_positional args)) as Hget.
    { destruct name as [[|c s]|]; try discriminate; by destruct args. }
    split; [exact Hget|]. split.
    + intros ->. exact Hget.
    + intros arg0 rest ->. exact Hget.
  - intros s -> Hname. destruct s as [|c s]; [discriminate|].
    unfold _get_parameter, getitem. split.
    + by intros v ->.
    + by intros ->.
Qed.

Lemma get_parameter_resolves_witness :
  _get_parameter None [VInt 1; VInt 2] ∅ = Returns (VInt 1)
  ∧ _get_parameter None [] (<["df" := VInt 1]> ∅) = Returns VNone
  ∧ _get_parameter (Some "df") [VInt 2] (<["df" := VInt 1]> ∅) = Returns (VInt 1)
  ∧ _get_parameter (Some "df") [VInt 2] ∅ = Raises (KeyError "df").
Proof.
  split; [|split; [|split]].
  - destruct (get_parameter_resolves None [VInt 1; VInt 2] ∅) as [Hno _].
    destruct (Hno eq_refl) as (_ & _ & Hfirst). exact (Hfirst _ _ eq_refl).
  - destruct (get_parameter_resolves None [] (<["df" := VInt 1]> ∅)) as [Hno _].
    destruct (Hno eq_refl) as (_ & Hnil & _). exact (Hnil eq_refl).
  - destruct (get_parameter_resolves (Some "df") [VInt 2] (<["df" := VInt 1]> ∅))
      as [_ Hyes].
    destruct (Hyes "df" eq_refl eq_refl) as [Hfound _]. exact (Hfound _ eq_refl).
  - destruct (get_parameter_resolves (Some "df") [VInt 2] ∅) as [_ Hyes].
    destruct (Hyes "df" eq_refl eq_refl) as [_ Hmissing]. exact (Hmissing eq_refl).
Defined.

(** What the body does is what a call does, as long as no keyword
    argument is called [name]. *)
Lemma call_reaches_body name args (kwargs : gmap string value) :
  kwargs !! "name" = None →
  call_get_parameter name args kwargs = _get_parameter name args kwargs.
Proof. unfold call_get_parameter. by intros ->. Qed.

(** C7 fails on the code.  The wrappers call the resolver as
    [_get_parameter(name, *args, **kwargs)]: a keyword argument called
    [name] is a second value for the first parameter, so the call raises a
    [TypeError] before the body runs, whatever name is configured and
    whatever else is passed; the first positional argument, [None] or the
    keyword argument of the configured name is then not returned. *)
Theorem resolver_call_rejects_keyword_name (name : option string) (args : list value)
    (kwargs : gmap string value) (v : value) :
  kwargs !! "name" = Some v →
  call_get_parameter name args kwargs =
    Raises (TypeError "_get_parameter() got multiple values for argument 'name'").
Proof. unfold call_get_parameter. by intros ->. Qed.

Lemma resolver_call_rejects_keyword_name_witness :
  (<["name" := VStr "x"]> ∅ : gmap string value) !! "name" = Some (VStr "x")
  ∧ _get_parameter (Some "name") [] (<["name" := VStr "x"]> ∅) = Returns (VStr "x")
  ∧ call_get_parameter (Some "name") [] (<["name" := VStr "x"]> ∅) =
      Raises (TypeError "_get_parameter() got multiple values for argument 'name'")
  ∧ call_get_parameter None [VInt 1] (<["name" := VStr "x"]> ∅) =
      Raises (TypeError "_get_parameter() got multiple values for argument 'name'").
Proof.
  split; [reflexivity|]. split; [reflexivity|]. split.
  - exact (resolver_call_rejects_keyword_name (Some "name") []
             (<["name" := VStr "x"]> ∅) (VStr "x") eq_refl).
  - exact (resolver_call_rejects_keyword_name None [VInt 1]
             (<["name" := VStr "x"]> ∅) (VStr "x") eq_refl).
Defined.

(** ** The wrappers *)

Section Wrappers.
Context {H : Type} `{SetIteration}.
Implicit Types (func : pyfunc H) (w : world H) (args : list value)
  (kwargs : gmap string value) (columns : ColumnsDef).

Lemma df_in_call name columns strict func args kwargs w :
  fn_call (df_in name columns strict func) args kwargs w =
  match call_get_parameter name args kwargs with
  | Raises e => (Raises e, w)
  | Returns (VDataFrame df) =>
      match gated_check df columns strict with
      | Raises e => (Raises e, w)
      | Returns _ => fn_call func args kwargs w
      end
  | Returns v => (Raises (AssertionError (wrong_parameter_msg v)), w)
  end.
Proof.
  unfold df_in, wraps, gated_check. simpl.
  unfold mbind, M_bind, and_then, lift.
  destruct (call_get_parameter name args kwargs) as [[]|]; try reflexivity.
  simpl. destruct (truthy columns); [|reflexivity].
  destruct (_check_columns df columns strict); reflexivity.
Qed.

Lemma df_out_call columns strict func args kwargs w :
  fn_call (df_out columns strict func) args kwargs w =
  match fn_call func args kwargs w with
  | (Raises e, w') => (Raises e, w')
  | (Returns (VDataFrame df), w') =>
      match gated_check df columns strict with
      | Raises e => (Raises e, w')
      | Returns _ => (Returns (VDataFrame df), w')
      end
  | (Returns v, w') => (Raises (AssertionError (wrong_return_msg v)), w')
  end.
Proof.
  unfold df_out, wraps, gated_check. simpl.
  unfold mbind, M_bind, and_then, lift.
  destruct (fn_call func args kwargs w) as [[[]|] w']; try reflexivity.
  simpl. destruct (truthy columns); [|reflexivity].
  destruct (_check_columns df columns strict); reflexivity.
Qed.

Lemma log_input_run func_name v include_dtypes w :
  _log_input func_name v include_dtypes w =
  (Returns tt,
   World (stdout w ++ debug_dump v :: input_lines func_name v include_dtypes) (heap w)).
Proof.
  unfold _log_input, mbind, M_bind, and_then, print, ret, debug_dump, input_lines.
  destruct v; simpl; rewrite <- ?app_assoc; reflexivity.
Qed.

Lemma log_output_run func_name v include_dtypes w :
  _log_output func_name v include_dtypes w =
  (Returns tt, World (stdout w ++ output_lines func_name v include_dtypes) (heap w)).
Proof.
  unfold _log_output, print, ret, output_lines.
  destruct v, w; simpl; rewrite ?app_nil_r; reflexivity.
Qed.

Lemma df_log_call name include_dtypes func args kwargs w :
  fn_call (df_log name include_dtypes func) args kwargs w =
  match call_get_parameter name args kwargs with
  | Raises e => (Raises e, w)
  | Returns v =>
      match fn_call func args kwargs
              (World (stdout w ++ debug_dump v
                        :: input_lines (fn_name func) v include_dtypes) (heap w)) with
      | (Raises e, w') => (Raises e, w')
      | (Returns result, w') =>
          (Returns VNone,
           World (stdout w' ++ output_lines (fn_name func) result include_dtypes)
             (heap w'))
      end
  end.
Proof.
  unfold df_log, wraps. simpl. unfold mbind, M_bind, and_then at 1, lift.
  destruct (call_get_parameter name args kwargs) as [v|]; [|reflexivity].
  unfold and_then at 1. rewrite log_input_run.
  unfold and_then at 1.
  destruct (fn_call func args kwargs _) as [[result|e] w']; [|reflexivity].
  unfold and_then. rewrite log_output_run. reflexivity.
Qed.

End Wrappers.

Section Tracing.
Context {H : Type}.

Lemma traced_calls (func : pyfunc H) args kwargs (w : world (list call_record * H)) :
  calls (fn_call (traced func) args kwargs w).2 = calls w ++ [(args, kwargs)].
Proof.
  unfold traced, calls. simpl.
  by destruct (fn_call func args kwargs _) as [o w'].
Qed.





(** A call of a [df_log] wrapper that completes evaluates to [None]. *)
Lemma df_log_result_none name include_dtypes (func : pyfunc H) args kwargs w r w' :
  fn_call (df_log name include_dtypes func) args kwargs w = (Returns r, w') →
  r = VNone.
Proof.
  rewrite df_log_call.
  destruct (call_get_parameter name args kwargs) as [v|]; [|discriminate].
  destruct (fn_call func args kwargs _) as [[result|e] w2]; [|discriminate].
  by intros [= <- _].
Qed.

End Tracing.

Section Contracts.
Context {H : Type} `{SetIteration}.
Implicit Types (func : pyfunc H) (w : world H) (args : list value)
  (kwargs : gmap string value) (columns : ColumnsDef).

(** C8.  When the checks of a call pass, the wrapper of [df_in] does what
    the wrapped function does on the same positional and keyword arguments,
    and the wrapper of [df_out] returns the DataFrame the function returned
    and leaves the world as the function left it; in both, the function
    receives one call, with the arguments of the wrapper's call. *)
Theorem wrappers_pass_through func args kwargs columns strict :
  (∀ name w df,
     call_get_parameter name args kwargs = Returns (VDataFrame df) →
     gated_check df columns strict = Returns tt →
     fn_call (df_in name columns strict func) args kwargs w = fn_call func args kwargs w)
  ∧ (∀ w df w',
       fn_call func args kwargs w = (Returns (VDataFrame df), w') →
       gated_check df columns strict = Returns tt →
       fn_call (df_out columns strict func) args kwargs w = (Returns (VDataFrame df), w'))
  ∧ (∀ name (w : world (list call_record * H)) df,
       call_get_parameter name args kwargs = Returns (VDataFrame df) →
       gated_check df columns strict = Returns tt →
       calls (fn_call (df_in name columns strict (traced func)) args kwargs w).2
         = calls w ++ [(args, kwargs)])
  ∧ (∀ (w : world (list call_record * H)),
       calls (fn_call (df_out columns strict (traced func)) args kwargs w).2
         = calls w ++ [(args, kwargs)]).
Proof.
  split; [|split; [|split]].
  - intros name w df Hparam Hcheck. by rewrite df_in_call, Hparam, Hcheck.
  - intros w df w' Hcall Hcheck. by rewrite df_out_call, Hcall, Hcheck.
  - intros name w df Hparam Hcheck.
    rewrite df_in_call, Hparam, Hcheck. apply traced_calls.
  - intros w. rewrite df_out_call, <- (traced_calls func args kwargs w).
    destruct (fn_call (traced func) args kwargs w) as [[[]|e] w']; try reflexivity.
    simpl. by destruct (gated_check df columns strict).
Qed.

(** C4, as the code has it.  Whenever the resolver returns a value that is
    not a DataFrame, the call fails with the wrong-parameter message and
    the world is untouched, whatever the column specification, the absent
    one included.  A call without positional arguments, without a
    configured name and without a keyword argument called [name] fails
    with the message for [NoneType]. *)
Theorem df_in_type_check columns strict func w :
  (∀ name args kwargs v,
     call_get_parameter name args kwargs = Returns v →
     is_dataframe v = false →
     fn_call (df_in name columns strict func) args kwargs w =
       (Raises (AssertionError (wrong_parameter_msg v)), w))
  ∧ (∀ name kwargs,
       name_given name = false →
       kwargs !! "name" = None →
       fn_call (df_in name columns strict func) [] kwargs w =
         (Raises (AssertionError
                    "Wrong parameter type. Expected Spark DataFrame, got NoneType instead."),
          w)).
Proof.
  split.
  - intros name args kwargs v Hparam Hv. rewrite df_in_call, Hparam.
    by destruct v.
  - intros name kwargs Hname Hkw. rewrite df_in_call.
    unfold call_get_parameter. rewrite Hkw.
    by destruct name as [[|c s]|].
Qed.


(** C10.  A tuple or a set of names goes through neither loop of the
    checker: without [strict] every DataFrame passes, whatever the names;
    with [strict] the check fails with the unexpected-columns message
    exactly when the number of columns differs from the length of the
    specification.  The wrappers run the checker for every specification
    that is truthy, of whatever type. *)
Theorem other_containers_checked_by_count strict func args kwargs :
  (∀ df columns n,
     other_container columns = true →
     len columns = Returns n →
     _check_columns df columns false = Returns tt
     ∧ (length (Py.columns df) = n → _check_columns df columns true = Returns tt)
     ∧ (length (Py.columns df) ≠ n →
          ∃ specified, set_of columns = Returns specified ∧
            _check_columns df columns true =
              Raises (AssertionError
                        (unexpected_msg (iter (list_to_set (Py.columns df) ∖ specified))))))
  ∧ (∀ name columns w df,
       truthy columns = true →
       call_get_parameter name args kwargs = Returns (VDataFrame df) →
       fn_call (df_in name columns strict func) args kwargs w =
         match _check_columns df columns strict with
         | Raises e => (Raises e, w)
         | Returns _ => fn_call func args kwargs w
         end)
  ∧ (∀ columns w df w',
       truthy columns = true →
       fn_call func args kwargs w = (Returns (VDataFrame df), w') →
       fn_call (df_out columns strict func) args kwargs w =
         match _check_columns df columns strict with
         | Raises e => (Raises e, w')
         | Returns _ => (Returns (VDataFrame df), w')
         end).
Proof.
  split; [|split].
  - intros df columns n. apply other_container_only_counted.
  - intros name columns w df Htruthy Hparam.
    rewrite df_in_call, Hparam. unfold gated_check. by rewrite Htruthy.
  - intros columns w df w' Htruthy Hcall.
    rewrite df_out_call, Hcall. unfold gated_check. by rewrite Htruthy.
Qed.

End Contracts.

(** ** The contracts on the fixtures *)

Section Fixtures.
Local Existing Instance elements_order.

Example describe_basic : _describe_df basic_df true =
  "columns: ['Brand', 'Price'] with dtypes ['string', 'int']".
Proof. reflexivity. Qed.

Example strict_exact_columns :
  _check_columns basic_df (CList ["Brand"; "Price"]) true = Returns tt.
Proof. vm_compute. reflexivity. Qed.

Example missing_column_reported :
  _check_columns basic_df (CList ["Brand"; "Price"; "X"]) true =
  Raises (AssertionError "Column X missing from DataFrame. Got columns: ['Brand', 'Price']").
Proof. vm_compute. reflexivity. Qed.

Example extra_column_strict :
  _check_columns basic_df (CList ["Brand"]) true =
  Raises (AssertionError "DataFrame contained unexpected column(s): Price").
Proof. vm_compute. reflexivity. Qed.

Example dtypes_match :
  _check_columns basic_df (CDict [("Brand", "string"); ("Price", "int")]) false = Returns tt.
Proof. vm_compute. reflexivity. Qed.

Example dtype_mismatch :
  _check_columns basic_df (CDict [("Brand", "string"); ("Price", "float")]) false =
  Raises (AssertionError "Column Price has wrong dtype. Was int, expected float").
Proof. vm_compute. reflexivity. Qed.

Example dtype_case_sensitive :
  _check_columns basic_df (CDict [("Price", "Int")]) false =
  Raises (AssertionError "Column Price has wrong dtype. Was int, expected Int").
Proof. vm_compute. reflexivity. Qed.

Example wrong_return_type :
  fn_call (df_out CNone false (PyFunc "test_fn" (λ _ _, ret (VInt 1)))) [] ∅ start =
  (Raises (AssertionError "Wrong return type. Expected spark dataframe, got <class 'int'>"),
   start).
Proof. vm_compute. reflexivity. Qed.

(** [df_in] over [df_out] on a function that joins its input with the
    extended table. *)
Example stacked_contracts :
  fn_call (df_in None (CList ["Brand"; "Price"]) false
             (df_out (CList ["Brand"; "Price"; "Year"]) false
                (PyFunc "test_fn" (λ _ _, ret (VDataFrame extended_df)))))
    [VDataFrame basic_df] ∅ start =
  (Returns (VDataFrame extended_df), start).
Proof. vm_compute. reflexivity. Qed.

Example wrong_input_type_named :
  fn_call (df_in (Some "my_input") CNone false identity) []
    (<["my_input" := VStr "foobar"]> ∅) start =
  (Raises (AssertionError "Wrong parameter type. Expected Spark DataFrame, got str instead."),
   start).
Proof. vm_compute. reflexivity. Qed.

Lemma basic_has_brand : "Brand" ∈ Py.columns basic_df.
Proof. repeat constructor. Qed.

Lemma basic_has_price : "Price" ∈ Py.columns basic_df.
Proof. repeat constructor. Qed.

Lemma basic_lacks (c : string) : c ≠ "Brand" → c ≠ "Price" → c ∉ Py.columns basic_df.
Proof.
  intros Hbrand Hprice. simpl.
  rewrite !not_elem_of_cons. split; [done|]. split; [done|]. apply not_elem_of_nil.
Qed.

Lemma brand_proper_subset :
  (list_to_set ["Brand"] : gset string) ⊂ list_to_set (Py.columns basic_df).
Proof.
  split.
  - apply elem_of_subseteq. intros c. rewrite !elem_of_list_to_set.
    intros ->%list_elem_of_singleton. apply basic_has_brand.
  - intros Hsup. apply elem_of_subseteq in Hsup. specialize (Hsup "Price").
    rewrite !elem_of_list_to_set, list_elem_of_singleton in Hsup.
    specialize (Hsup basic_has_price). discriminate.
Qed.

Lemma brand_is_string : item_holds basic_df ("Brand", "string").
Proof. split; [apply basic_has_brand | reflexivity]. Qed.

(** C2 fails as stated: three times the same name pass the presence
    check of a two-column DataFrame, and the strict check fails although
    two columns do not exceed three specified ones; and twice the same
    name, a proper subset of the columns, passes the strict check. *)
Lemma strict_fails_below_count :
  (len (CList ["Brand"; "Brand"; "Brand"]) = Returns 3%nat
   ∧ _check_columns basic_df (CList ["Brand"; "Brand"; "Brand"]) false = Returns tt
   ∧ _check_columns basic_df (CList ["Brand"; "Brand"; "Brand"]) true =
       Raises (AssertionError "DataFrame contained unexpected column(s): Price")
   ∧ ¬ (3 < length (Py.columns basic_df))%nat)
  ∧ ((list_to_set ["Brand"; "Brand"] : gset string) ⊂ list_to_set (Py.columns basic_df)
     ∧ _check_columns basic_df (CList ["Brand"; "Brand"]) true = Returns tt).
Proof.
  split.
  - split; [reflexivity|]. split; [by vm_compute|]. split; [by vm_compute|].
    simpl. lia.
  - split; [|by vm_compute].
    replace (list_to_set ["Brand"; "Brand"] : gset string) with
      (list_to_set ["Brand"] : gset string); [apply brand_proper_subset|].
    apply set_eq. intros c. rewrite !elem_of_list_to_set, !elem_of_cons. tauto.
Qed.

Lemma strict_fails_on_count_mismatch_witness :
  (NoDup ["Brand"]
   ∧ (list_to_set ["Brand"] : gset string) ⊂ list_to_set (Py.columns basic_df))
  ∧ _check_columns basic_df (CList ["Brand"]) false = Returns tt
  ∧ fails_unexpected (_check_columns basic_df (CList ["Brand"]) true)
      (list_to_set (Py.columns basic_df) ∖ list_to_set ["Brand"])
  ∧ ((∃ surplus, fails_unexpected (_check_columns basic_df (CList ["Brand"]) true) surplus)
       ↔ (1 < length (Py.columns basic_df))%nat).
Proof.
  assert (NoDup ["Brand"]) as Hnd by (apply NoDup_singleton).
  pose proof brand_proper_subset as Hsub.
  destruct (strict_fails_on_count_mismatch basic_df) as [Hcount Hsubset].
  destruct (Hsubset ["Brand"] Hnd Hsub) as [Hpass Hfail].
  destruct (Hcount (CList ["Brand"]) 1%nat eq_refl Hpass) as (_ & _ & _ & Hexceeds).
  split; [by split|]. split; [exact Hpass|]. split; [exact Hfail|].
  exact (Hexceeds Hnd).
Defined.

Lemma dtype_mapping_checked_witness :
  (Forall (item_holds basic_df) [("Brand", "string")]
   ∧ "Price" ∈ Py.columns basic_df
   ∧ dict (dtypes basic_df) !! "Price" = Some "int"
   ∧ "int" ≠ "float")
  ∧ _check_columns basic_df (CDict [("Brand", "string"); ("Price", "float")]) true =
      Raises (AssertionError "Column Price has wrong dtype. Was int, expected float").
Proof.
  assert (Forall (item_holds basic_df) [("Brand", "string")]) as Hbefore.
  { repeat constructor. }
  assert ("int" ≠ "float") as Hne by discriminate.
  split; [repeat split; try done; apply basic_has_price|].
  destruct (dtype_mapping_checked basic_df [("Brand", "string"); ("Price", "float")])
    as [_ Hmismatch].
  exact (Hmismatch true [("Brand", "string")] "Price" "float" [] "int"
           eq_refl Hbefore basic_has_price eq_refl Hne).
Defined.

Lemma check_columns_short_circuit_witness :
  (Forall (λ c, c ∈ Py.columns basic_df) ["Brand"] ∧ "X" ∉ Py.columns basic_df)
  ∧ _check_columns basic_df (CList ["Brand"; "X"; "Y"]) true =
      Raises (AssertionError (missing_msg "X" basic_df))
  ∧ (check_item basic_df (dict (dtypes basic_df)) ("Price", "float") =
       Raises (AssertionError (wrong_dtype_msg "Price" "int" "float"))
     ∧ _check_columns basic_df
         (CDict [("Brand", "string"); ("Price", "float"); ("Year", "int")]) false =
       Raises (AssertionError (wrong_dtype_msg "Price" "int" "float"))).
Proof.
  assert (Forall (λ c, c ∈ Py.columns basic_df) ["Brand"]) as Hbefore.
  { repeat constructor. }
  assert ("X" ∉ Py.columns basic_df) as Hmissing by (by apply basic_lacks).
  assert (check_item basic_df (dict (dtypes basic_df)) ("Price", "float") =
            Raises (AssertionError (wrong_dtype_msg "Price" "int" "float"))) as Hitem.
  { by vm_compute. }
  destruct (check_columns_short_circuit basic_df) as (Hlist & Hdict & _ & _).
  split; [by split|]. split.
  - exact (Hlist true ["Brand"] "X" ["Y"] Hbefore Hmissing).
  - split; [exact Hitem|].
    refine (Hdict false [("Brand", "string")] ("Price", "float") [("Year", "int")] _ _ Hitem).
    repeat constructor.
Defined.

Lemma wrappers_pass_through_witness :
  (call_get_parameter None [VDataFrame basic_df] ∅ = Returns (VDataFrame basic_df)
   ∧ gated_check basic_df (CList ["Brand"; "Price"]) true = Returns tt
   ∧ fn_call identity [VDataFrame basic_df] ∅ start = (Returns (VDataFrame basic_df), start))
  ∧ fn_call (df_in None (CList ["Brand"; "Price"]) true identity)
      [VDataFrame basic_df] ∅ start
    = fn_call identity [VDataFrame basic_df] ∅ start
  ∧ fn_call (df_out (CList ["Brand"; "Price"]) true identity)
      [VDataFrame basic_df] ∅ start
    = (Returns (VDataFrame basic_df), start)
  ∧ calls (fn_call (df_in None (CList ["Brand"; "Price"]) true (traced identity))
             [VDataFrame basic_df] ∅ (World [] ([], tt))).2
    = [] ++ [([VDataFrame basic_df], ∅)].
Proof.
  assert (gated_check basic_df (CList ["Brand"; "Price"]) true = Returns tt) as Hcheck.
  { by vm_compute. }
  destruct (wrappers_pass_through identity [VDataFrame basic_df] ∅
              (CList ["Brand"; "Price"]) true) as (Hin & Hout & Hin_once & _).
  split; [by repeat split|]. split; [|split].
  - exact (Hin None start basic_df eq_refl Hcheck).
  - exact (Hout start basic_df start eq_refl Hcheck).
  - exact (Hin_once None (World [] ([], tt)) basic_df eq_refl Hcheck).
Defined.

(** C4 fails as stated: with a configured name that no keyword argument
    has, the call ends in the [KeyError] of the resolver and the instance
    check is not reached; and a call without positional arguments and
    without a configured name that passes a keyword argument called [name]
    ends in a [TypeError], not in the message for [NoneType]. *)
Lemma df_in_type_check_not_reached :
  fn_call (df_in (Some "df") CNone false identity) [VInt 1] ∅ start =
    (Raises (KeyError "df"), start)
  ∧ fn_call (df_in None CNone false by_name) [] (<["name" := VStr "x"]> ∅) start =
      (Raises (TypeError "_get_parameter() got multiple values for argument 'name'"),
       start).
Proof. split; by vm_compute. Qed.

Lemma df_in_type_check_witness :
  (call_get_parameter None [VStr "foobar"] ∅ = Returns (VStr "foobar")
   ∧ is_dataframe (VStr "foobar") = false
   ∧ name_given None = false
   ∧ (∅ : gmap string value) !! "name" = None)
  ∧ fn_call (df_in None CNone false identity) [VStr "foobar"] ∅ start =
      (Raises (AssertionError (wrong_parameter_msg (VStr "foobar"))), start)
  ∧ fn_call (df_in None CNone false identity) [] ∅ start =
      (Raises (AssertionError
                 "Wrong parameter type. Expected Spark DataFrame, got NoneType instead."),
       start).
Proof.
  destruct (df_in_type_check CNone false identity start) as [Hvalue Hnone].
  split; [by repeat split|]. split.
  - exact (Hvalue None [VStr "foobar"] ∅ (VStr "foobar") eq_refl eq_refl).
  - exact (Hnone None ∅ eq_refl eq_refl).
Defined.



Lemma other_containers_checked_by_count_witness :
  (other_container (CTuple ["Nope"; "Nada"]) = true
   ∧ len (CTuple ["Nope"; "Nada"]) = Returns 2%nat
   ∧ length (Py.columns basic_df) = 2%nat
   ∧ truthy (CTuple ["Nope"; "Nada"]) = true
   ∧ call_get_parameter None [VDataFrame basic_df] ∅ = Returns (VDataFrame basic_df))
  ∧ _check_columns basic_df (CTuple ["Nope"; "Nada"]) false = Returns tt
  ∧ _check_columns basic_df (CTuple ["Nope"; "Nada"]) true = Returns tt
  ∧ (length (Py.columns basic_df) ≠ 1%nat
     ∧ ∃ specified, set_of (CSet {["Brand"]}) = Returns specified ∧
         _check_columns basic_df (CSet {["Brand"]}) true =
           Raises (AssertionError
                     (unexpected_msg
                        (iter (list_to_set (Py.columns basic_df) ∖ specified)))))
  ∧ fn_call (df_in None (CTuple ["Nope"; "Nada"]) true identity)
      [VDataFrame basic_df] ∅ start =
    match _check_columns basic_df (CTuple ["Nope"; "Nada"]) true with
    | Raises e => (Raises e, start)
    | Returns _ => fn_call identity [VDataFrame basic_df] ∅ start
    end.
Proof.
  destruct (other_containers_checked_by_count true identity [VDataFrame basic_df] ∅)
    as (Hcount & Hin & _).
  destruct (Hcount basic_df (CTuple ["Nope"; "Nada"]) 2%nat eq_refl eq_refl)
    as (Hloose & Hstrict & _).
  assert (length (Py.columns basic_df) ≠ 1%nat) as Hne by discriminate.
  assert (len (CSet {["Brand"]}) = Returns 1%nat) as Hlen by (by vm_compute).
  destruct (Hcount basic_df (CSet {["Brand"]}) 1%nat eq_refl Hlen) as (_ & _ & Hset).
  split; [by repeat split|]. split; [exact Hloose|]. split; [exact (Hstrict eq_refl)|].
  split; [exact (conj Hne (Hset Hne))|].
  exact (Hin None (CTuple ["Nope"; "Nada"]) start basic_df eq_refl eq_refl).
Defined.

(** C1 fails on the code: the wrapped function returns the DataFrame, and
    the call of its [df_log] wrapper evaluates to [None]. *)
Theorem df_log_drops_result :
  fn_call test_fn [VDataFrame basic_df] ∅ start = (Returns (VDataFrame basic_df), start)
  ∧ (fn_call (df_log None false test_fn) [VDataFrame basic_df] ∅ start).1 = Returns VNone.
Proof. split; by vm_compute. Qed.

(** C6 fails on the code: the call of the logging test makes three calls
    of [print].  The first dumps the resolved argument after the text
    [log_input] and a line break; the two diagnostic lines follow. *)
Theorem df_log_prints_three_calls :
  stdout (fn_call (df_log None false test_fn) [VDataFrame basic_df] ∅ start).2 =
  [ [PStr ("log_input" +:+ newline); PVal (VDataFrame basic_df)];
    [PStr "Function test_fn parameters contained a DataFrame: columns: ['Brand', 'Price']"];
    [PStr "Function test_fn returned a DataFrame: columns: ['Brand', 'Price']"] ].
Proof. by vm_compute. Qed.

End Fixtures.

(** * Further properties of the checker *)

Section Dictionaries.

Lemma dict_list_to_map (pairs : list (string * string)) :
  dict pairs = list_to_map (reverse pairs).
Proof.
  induction pairs as [|[k v] pairs IH] using rev_ind; [done|].
  rewrite reverse_snoc. unfold dict in *. rewrite fold_left_app. simpl.
  by rewrite IH.
Qed.

(** [dict(pairs)[k]] exists exactly for the keys of the pairs. *)
Lemma dict_lookup_is_Some (pairs : list (string * string)) k :
  is_Some (dict pairs !! k) ↔ k ∈ pairs.*1.
Proof.
  rewrite dict_list_to_map, <- not_eq_None_Some, <- not_elem_of_list_to_map.
  rewrite fmap_reverse, elem_of_reverse.
  split; [apply dec_stable | tauto].
Qed.

(** With distinct keys, [dict(pairs)[k]] is the value paired with [k]. *)
Lemma dict_lookup_Some (pairs : list (string * string)) k v :
  NoDup pairs.*1 → dict pairs !! k = Some v ↔ (k, v) ∈ pairs.
Proof.
  intros Hnd. rewrite dict_list_to_map, <- elem_of_list_to_map.
  - by rewrite elem_of_reverse.
  - by rewrite fmap_reverse, reverse_Permutation.
Qed.

(** With a repeated key, [dict(pairs)[k]] is the value of the last pair
    of that key. *)
Lemma dict_lookup_last (before after : list (string * string)) k v :
  k ∉ after.*1 → dict (before ++ (k, v) :: after) !! k = Some v.
Proof.
  intros Hafter. rewrite dict_list_to_map, reverse_app, reverse_cons, <- app_assoc.
  rewrite list_to_map_app. apply lookup_union_Some_raw. right. split.
  - apply not_elem_of_list_to_map. by rewrite fmap_reverse, elem_of_reverse.
  - simpl. apply lookup_insert_eq.
Qed.

End Dictionaries.

Section ExactMatch.
Context `{SetIteration}.
Implicit Types (df : DataFrame) (columns : ColumnsDef).

Lemma list_check_passes df names :
  _check_columns df (CList names) false = Returns tt ↔ names ⊆ Py.columns df.
Proof.
  rewrite check_columns_list, for_each_ok, Forall_forall.
  split; intros Hall c Hc; [apply check_name_ok | apply check_name_ok]; by apply Hall.
Qed.

(** A strict call that passes has passed the loops and found equal counts. *)
Lemma strict_pass_inv df columns n :
  len columns = Returns n →
  _check_columns df columns true = Returns tt →
  _check_columns df columns false = Returns tt ∧ length (Py.columns df) = n.
Proof.
  intros Hlen Hstrict.
  destruct (outcome_unit_eta (_check_columns df columns false)) as [Hpass | [e Hfail]].
  - split; [done|]. rewrite (check_columns_strict _ _ Hpass) in Hstrict.
    destruct (decide (length (Py.columns df) = n)) as [|Hne]; [done|].
    destruct (check_strict_neq _ _ _ Hlen Hne) as (S & _ & Hraise). congruence.
  - rewrite (check_columns_raises_early _ _ true _ Hfail) in Hstrict. discriminate.
Qed.

(** X1.  Strict mode on a list of names is an exact match up to order:
    every reordering of [df.columns] passes, and a list without repeated
    names that passes is a reordering of [df.columns]. *)
Theorem strict_list_is_exact_match df names :
  (names ≡ₚ Py.columns df → _check_columns df (CList names) true = Returns tt)
  ∧ (NoDup names →
     _check_columns df (CList names) true = Returns tt →
     names ≡ₚ Py.columns df).
Proof.
  split.
  - intros Hperm.
    assert (_check_columns df (CList names) false = Returns tt) as Hpass.
    { apply list_check_passes. intros c. by rewrite Hperm. }
    rewrite (check_columns_strict _ _ Hpass).
    apply (check_strict_eq df (CList names) (length names)); [done|].
    by rewrite Hperm.
  - intros Hnd Hstrict.
    destruct (strict_pass_inv df (CList names) _ eq_refl Hstrict) as [Hpass Hlen].
    apply list_check_passes in Hpass.
    apply submseteq_length_Permutation; [|lia].
    by apply NoDup_submseteq.
Qed.

(** X2.  The loose check of a list of names looks at sets only: it passes
    exactly when every specified name is a column, whatever the order and
    the repetitions on either side. *)
Theorem loose_list_check_by_set df names :
  _check_columns df (CList names) false = Returns tt
  ↔ (list_to_set names : gset string) ⊆ list_to_set (Py.columns df).
Proof.
  rewrite list_check_passes, elem_of_subseteq.
  split; intros Hsub c; specialize (Hsub c);
    rewrite ?elem_of_list_to_set in *; done.
Qed.

(** X3.  A name that is not a column is reported before any count is
    compared: when some specified name is missing, the call fails with the
    missing-column message of such a name, strict or not. *)
Theorem missing_column_precedes_count df names strict :
  ¬ names ⊆ Py.columns df →
  ∃ column,
    column ∈ names ∧ (column ∉ Py.columns df) ∧
    _check_columns df (CList names) strict =
      Raises (AssertionError (missing_msg column df)).
Proof.
  intros Hnot.
  destruct (outcome_unit_eta (_check_columns df (CList names) false))
    as [Hpass%list_check_passes | [e Hfail]]; [done|].
  pose proof Hfail as Hinv. rewrite check_columns_list in Hinv.
  apply for_each_failure_inv in Hinv as (before & column & after & -> & _ & Hcol).
  assert (column ∉ Py.columns df) as Hmissing.
  { intros Hin%check_name_ok. congruence. }
  exists column. split; [|split; [done|]].
  - apply elem_of_app. right. apply elem_of_cons. by left.
  - rewrite (check_name_missing _ _ Hmissing) in Hcol.
    rewrite (check_columns_raises_early _ _ strict _ Hfail). congruence.
Qed.

(** X4.  On a DataFrame whose columns are the names of its dtype pairs,
    all distinct, strict mode on a dict is an exact match of the schema up
    to order: every reordering of [df.dtypes] passes, and a dict that
    passes is a reordering of [df.dtypes]. *)
Theorem strict_dict_is_exact_schema df items :
  consistent df →
  NoDup (Py.columns df) →
  (items ≡ₚ dtypes df → _check_columns df (CDict items) true = Returns tt)
  ∧ (NoDup items.*1 →
     _check_columns df (CDict items) true = Returns tt →
     items ≡ₚ dtypes df).
Proof.
  intros Hcons Hnd. unfold consistent in Hcons.
  assert (NoDup (dtypes df).*1) as Hkeys by (by rewrite <- Hcons).
  split.
  - intros Hperm.
    assert (_check_columns df (CDict items) false = Returns tt) as Hpass.
    { rewrite check_columns_dict, for_each_ok. apply Forall_forall.
      intros [c t] Hin. apply check_item_ok. rewrite Hperm in Hin.
      split; simpl.
      - rewrite Hcons. by apply (list_elem_of_fmap_2 fst) in Hin.
      - by apply dict_lookup_Some. }
    rewrite (check_columns_strict _ _ Hpass).
    apply (check_strict_eq df (CDict items) (length items)); [done|].
    by rewrite Hcons, length_fmap, Hperm.
  - intros Hnd_items Hstrict.
    destruct (strict_pass_inv df (CDict items) _ eq_refl Hstrict) as [Hpass Hlen].
    rewrite check_columns_dict, for_each_ok, Forall_forall in Hpass.
    apply submseteq_length_Permutation.
    + apply NoDup_submseteq; [by apply (NoDup_fmap_1 fst)|].
      intros [c t] Hin. apply Hpass, check_item_ok in Hin as [_ Hdtype].
      by apply dict_lookup_Some in Hdtype.
    + rewrite Hcons, length_fmap in Hlen. lia.
Qed.

Lemma check_item_raises_assertion df item e :
  Py.columns df ⊆ (dtypes df).*1 →
  check_item df (dict (dtypes df)) item = Raises e →
  ∃ msg, e = AssertionError msg.
Proof.
  intros Hsub. destruct item as [c t]. unfold check_item, assert, getitem.
  destruct (has_column df c) eqn:Hc; simpl; [|intros [= <-]; eauto].
  apply has_column_true, Hsub, dict_lookup_is_Some in Hc as [a ->]. simpl.
  destruct (String.eqb a t); [discriminate | intros [= <-]; eauto].
Qed.

(** X5.  On a DataFrame whose columns all have a dtype pair, a check
    against a list, dict, tuple or set fails with an [AssertionError] and
    with nothing else. *)
Theorem checker_raises_only_assertions df columns strict e :
  Py.columns df ⊆ (dtypes df).*1 →
  columns ≠ CNone →
  _check_columns df columns strict = Raises e →
  ∃ msg, e = AssertionError msg.
Proof.
  intros Hsub Hnone Hraise.
  assert (∃ n, len columns = Returns n) as [n Hlen].
  { destruct columns; try done; simpl; eauto. }
  destruct (outcome_unit_eta (_check_columns df columns false)) as [Hpass | [e' Hfail]].
  - destruct strict; [|congruence].
    rewrite (check_columns_strict _ _ Hpass) in Hraise.
    destruct (decide (length (Py.columns df) = n)) as [Heq|Hne].
    + rewrite (check_strict_eq _ _ _ Hlen Heq) in Hraise. discriminate.
    + destruct (check_strict_neq _ _ _ Hlen Hne) as (S & _ & Hstrict).
      rewrite Hstrict in Hraise. injection Hraise as <-. eauto.
  - rewrite (check_columns_raises_early _ _ strict _ Hfail) in Hraise.
    injection Hraise as <-.
    destruct columns as [|names|items|names|names]; try done.
    + rewrite check_columns_list in Hfail.
      apply for_each_failure_inv in Hfail as (_ & c & _ & _ & _ & Hc).
      unfold check_name, assert in Hc.
      destruct (has_column df c); [discriminate | injection Hc as <-; eauto].
    + rewrite check_columns_dict in Hfail.
      apply for_each_failure_inv in Hfail as (_ & item & _ & _ & _ & Hitem).
      by eapply check_item_raises_assertion.
Qed.

(** X6.  When the strict count differs although no column is outside the
    specification (a name repeated on either side, or a longer tuple or
    set), the unexpected-columns message names no column at all. *)
Theorem strict_failure_lists_nothing df columns n specified :
  len columns = Returns n →
  set_of columns = Returns specified →
  _check_columns df columns false = Returns tt →
  length (Py.columns df) ≠ n →
  list_to_set (Py.columns df) ⊆ specified →
  _check_columns df columns true =
    Raises (AssertionError "DataFrame contained unexpected column(s): ").
Proof.
  intros Hlen Hset Hpass Hne Hsub.
  rewrite (check_columns_strict _ _ Hpass).
  destruct (check_strict_neq _ _ _ Hlen Hne) as (S & HS & ->).
  assert (S = specified) as -> by congruence.
  rewrite (subseteq_empty_difference_L _ _ Hsub).
  pose proof (iter_perm ∅) as Hperm. rewrite elements_empty in Hperm.
  apply Permutation_nil_r in Hperm. by rewrite Hperm.
Qed.

(** X14.  On a DataFrame whose columns are the names of its dtype pairs,
    all distinct, the loose check of a dict passes exactly when every item
    of the dict is a pair of [df.dtypes]. *)
Theorem loose_dict_check_by_schema df items :
  consistent df →
  NoDup (Py.columns df) →
  _check_columns df (CDict items) false = Returns tt ↔ items ⊆ dtypes df.
Proof.
  intros Hcons Hnd. unfold consistent in Hcons.
  assert (NoDup (dtypes df).*1) as Hkeys by (by rewrite <- Hcons).
  rewrite check_columns_dict, for_each_ok, Forall_forall.
  split; intros Hall [c t] Hin.
  - apply Hall, check_item_ok in Hin as [_ Hdtype]. by apply dict_lookup_Some in Hdtype.
  - apply check_item_ok. apply Hall in Hin. split; simpl.
    + rewrite Hcons. by apply (list_elem_of_fmap_2 fst) in Hin.
    + by apply dict_lookup_Some.
Qed.

(** X15.  When several columns have one name, the dtype a dict is checked
    against is that of the last pair of that name in [df.dtypes]: the
    check of one item passes exactly when the expected dtype is that one. *)
Theorem duplicate_column_checked_against_last df before column actual after dtype :
  dtypes df = before ++ (column, actual) :: after →
  column ∉ after.*1 →
  column ∈ Py.columns df →
  _check_columns df (CDict [(column, dtype)]) false = Returns tt ↔ actual = dtype.
Proof.
  intros Hdtypes Hafter Hin.
  rewrite check_columns_dict, for_each_ok, Forall_singleton, check_item_ok.
  unfold item_holds. simpl. rewrite Hdtypes, (dict_lookup_last _ _ _ _ Hafter).
  split; [by intros [_ [= ->]] | by intros ->].
Qed.

End ExactMatch.

(** * Further properties of the wrappers *)

Section Composition.
Context {H : Type} `{SetIteration}.
Implicit Types (func : pyfunc H) (w : world H) (args : list value)
  (kwargs : gmap string value) (columns : ColumnsDef).

Lemma gated_check_falsy df columns strict :
  truthy columns = false → gated_check df columns strict = Returns tt.
Proof. unfold gated_check. by intros ->. Qed.

(** X7.  An empty specification switches the column check off, and
    [strict] with it: the wrappers behave as without a specification,
    although the checker itself, called strictly with an empty list on a
    DataFrame that has columns, fails. *)
Theorem empty_specification_checks_nothing columns strict func args kwargs w :
  truthy columns = false →
  (∀ name,
     fn_call (df_in name columns strict func) args kwargs w =
     fn_call (df_in name CNone false func) args kwargs w)
  ∧ fn_call (df_out columns strict func) args kwargs w =
    fn_call (df_out CNone false func) args kwargs w
  ∧ (∀ df, Py.columns df ≠ [] →
       ∃ msg, _check_columns df (CList []) true = Raises (AssertionError msg)).
Proof.
  intros Hfalsy. split; [|split].
  - intros name. rewrite !df_in_call.
    destruct (call_get_parameter name args kwargs) as [[]|]; try reflexivity.
    by rewrite (gated_check_falsy _ _ _ Hfalsy).
  - rewrite !df_out_call.
    destruct (fn_call func args kwargs w) as [[[]|] w']; try reflexivity.
    by rewrite (gated_check_falsy _ _ _ Hfalsy).
  - intros df Hcols.
    assert (length (Py.columns df) ≠ 0%nat) as Hne by (by destruct (Py.columns df)).
    assert (_check_columns df (CList []) false = Returns tt) as Hpass by done.
    rewrite (check_columns_strict _ _ Hpass).
    destruct (check_strict_neq df (CList []) _ eq_refl Hne) as (S & _ & ->). eauto.
Qed.

(** X8.  A call through [df_in] is all or nothing: either it is the call
    of the wrapped function, which then receives the original arguments
    once, or it raises with the world as it was and the function is not
    called. *)
Theorem df_in_all_or_nothing name columns strict func args kwargs
    (w : world (list call_record * H)) :
  (fn_call (df_in name columns strict (traced func)) args kwargs w
     = fn_call (traced func) args kwargs w
   ∧ calls (fn_call (df_in name columns strict (traced func)) args kwargs w).2
     = calls w ++ [(args, kwargs)])
  ∨ (∃ e,
       fn_call (df_in name columns strict (traced func)) args kwargs w = (Raises e, w)
       ∧ calls (fn_call (df_in name columns strict (traced func)) args kwargs w).2
         = calls w).
Proof.
  rewrite df_in_call.
  destruct (call_get_parameter name args kwargs) as [v|e]; [|right; eauto].
  destruct v as [| | | |df|]; try (right; eexists; split; reflexivity).
  destruct (gated_check df columns strict); [|right; eauto].
  left. split; [done | apply traced_calls].
Qed.

(** X9.  [df_out] checks after the call and undoes nothing: the world
    after the wrapper is the world the function left, an exception of the
    function leaves the wrapper unchanged, a result that is not a
    DataFrame fails with the wrong-return-type message, and a DataFrame
    that fails the column check fails the call with the checker's
    exception. *)
Theorem df_out_checks_after_the_call columns strict func args kwargs w :
  (fn_call (df_out columns strict func) args kwargs w).2 = (fn_call func args kwargs w).2
  ∧ (∀ e w',
       fn_call func args kwargs w = (Raises e, w') →
       fn_call (df_out columns strict func) args kwargs w = (Raises e, w'))
  ∧ (∀ v w',
       fn_call func args kwargs w = (Returns v, w') →
       is_dataframe v = false →
       fn_call (df_out columns strict func) args kwargs w =
         (Raises (AssertionError
                    ("Wrong return type. Expected spark dataframe, got " +:+ type_repr v)),
          w'))
  ∧ (∀ df w' e,
       fn_call func args kwargs w = (Returns (VDataFrame df), w') →
       gated_check df columns strict = Raises e →
       fn_call (df_out columns strict func) args kwargs w = (Raises e, w')).
Proof.
  rewrite df_out_call. split; [|split; [|split]].
  - destruct (fn_call func args kwargs w) as [[[]|] w']; try reflexivity.
    simpl. by destruct (gated_check df columns strict).
  - by intros e w' ->.
  - intros v w' -> Hv. by destruct v.
  - by intros df w' e -> ->.
Qed.

(** X10.  The two ways of stacking an input contract and an output
    contract on one function are the same function: in both, the input is
    checked before the call and the result after it, and the name is that
    of the wrapped function. *)
Theorem stacked_contracts_commute name c_in s_in c_out s_out func args kwargs w :
  fn_call (df_in name c_in s_in (df_out c_out s_out func)) args kwargs w
    = fn_call (df_out c_out s_out (df_in name c_in s_in func)) args kwargs w
  ∧ fn_name (df_in name c_in s_in (df_out c_out s_out func)) = fn_name func
  ∧ fn_name (df_out c_out s_out (df_in name c_in s_in func)) = fn_name func.
Proof.
  split; [|done].
  rewrite df_out_call, !df_in_call, df_out_call.
  destruct (call_get_parameter name args kwargs) as [[]|]; try reflexivity.
  destruct (gated_check df c_in s_in); reflexivity.
Qed.

(** X11.  Applying the same contract twice is applying it once. *)
Theorem contracts_idempotent name columns strict func args kwargs w :
  fn_call (df_in name columns strict (df_in name columns strict func)) args kwargs w
    = fn_call (df_in name columns strict func) args kwargs w
  ∧ fn_call (df_out columns strict (df_out columns strict func)) args kwargs w
    = fn_call (df_out columns strict func) args kwargs w.
Proof.
  split.
  - rewrite !df_in_call.
    destruct (call_get_parameter name args kwargs) as [[]|]; try reflexivity.
    destruct (gated_check df columns strict); reflexivity.
  - rewrite !df_out_call.
    destruct (fn_call func args kwargs w) as [[[]|] w']; try reflexivity.
    destruct (gated_check df columns strict) eqn:Hcheck; [|reflexivity].
    by rewrite Hcheck.
Qed.

(** X12.  An output contract placed over the logger never lets a call
    return: the logger's wrapper evaluates to [None], so a call of the
    logged function that completes fails the output contract with the
    wrong-return-type message for [NoneType]. *)
Theorem df_out_over_df_log_rejects name include_dtypes columns strict func args kwargs w :
  (∃ e w',
     fn_call (df_out columns strict (df_log name include_dtypes func)) args kwargs w
       = (Raises e, w'))
  ∧ (∀ r w',
       fn_call (df_log name include_dtypes func) args kwargs w = (Returns r, w') →
       fn_call (df_out columns strict (df_log name include_dtypes func)) args kwargs w =
         (Raises (AssertionError
                    "Wrong return type. Expected spark dataframe, got <class 'NoneType'>"),
          w')).
Proof.
  rewrite df_out_call.
  destruct (fn_call (df_log name include_dtypes func) args kwargs w) as [[r|e] w'] eqn:Hlog.
  - apply df_log_result_none in Hlog as ->. split; [eauto|].
    by intros r w2 [= <- <-].
  - split; [eauto | discriminate].
Qed.

End Composition.

(** * The description of a DataFrame *)

Section Description.

Lemma append_empty_r (s : string) : s +:+ EmptyString = s.
Proof.
  induction s as [|c s IH]; [done|].
  change (String c (s +:+ EmptyString) = String c s). by f_equal.
Qed.

Lemma escape_char_plain c :
  plain_char c = true → escape_char squote c = String c EmptyString.
Proof.
  unfold plain_char, escape_char.
  rewrite !andb_true_iff, !negb_true_iff.
  intros ((((Hlo%Nat.leb_le & Hhi%Nat.ltb_lt) & Hsq) & _) & Hbs).
  rewrite Hsq, Hbs. simpl.
  destruct (Nat.eqb_spec (nat_of_ascii c) 9); [lia|].
  destruct (Nat.eqb_spec (nat_of_ascii c) 10); [lia|].
  destruct (Nat.eqb_spec (nat_of_ascii c) 13); [lia|].
  destruct (Nat.ltb_spec (nat_of_ascii c) 32); [lia|].
  destruct (Nat.eqb_spec (nat_of_ascii c) 127); [lia|].
  reflexivity.
Qed.

Lemma escape_plain s :
  plain s = true → escape squote s = s ∧ mem_char squote s = false.
Proof.
  induction s as [|c s IH]; [done|].
  cbn [plain escape mem_char]. rewrite andb_true_iff. intros [Hc Hs].
  destruct (IH Hs) as [-> ->]. rewrite (escape_char_plain _ Hc).
  split; [done|].
  unfold plain_char in Hc. rewrite !andb_true_iff, !negb_true_iff in Hc.
  destruct Hc as (((_ & Hsq) & _) & _).
  rewrite Ascii.eqb_sym in Hsq. by rewrite Hsq.
Qed.

Lemma repr_str_plain s : plain s = true → repr_str s = quoted s.
Proof.
  intros [Hesc Hmem]%escape_plain. unfold repr_str, quoted.
  rewrite Hmem. cbn [andb]. cbv zeta. by rewrite Hesc.
Qed.

Lemma str_list_plain (l : list string) :
  Forall (λ s, plain s = true) l →
  str_list l = "[" +:+ join ", " (quoted <$> l) +:+ "]".
Proof.
  intros Hall. unfold str_list. do 3 f_equal.
  induction Hall as [|s l Hs _ IH]; [done|].
  simpl. by rewrite IH, (repr_str_plain _ Hs).
Qed.

(** X13.  For column names (and, when asked for, dtypes) written in
    printable ASCII without quotes or backslashes, the description is the
    text [columns: ] and the names, each in single quotes, separated by a
    comma and a space, in brackets and in the order of [df.columns];
    with [include_dtypes] the dtypes follow in the same form, one for
    each pair of [df.dtypes] and in their order. *)
Theorem describe_df_format df include_dtypes :
  Forall (λ s, plain s = true) (Py.columns df) →
  (include_dtypes = true → Forall (λ s, plain s = true) (dtypes df).*2) →
  _describe_df df include_dtypes =
    ("columns: " +:+ "[" +:+ join ", " (quoted <$> Py.columns df) +:+ "]")
      +:+ (if include_dtypes
           then " with dtypes " +:+ "[" +:+ join ", " (quoted <$> (dtypes df).*2) +:+ "]"
           else EmptyString).
Proof.
  intros Hcols Hdtypes. unfold _describe_df.
  rewrite (str_list_plain _ Hcols).
  destruct include_dtypes.
  - by rewrite <- (str_list_plain _ (Hdtypes eq_refl)).
  - by rewrite append_empty_r.
Qed.

End Description.

(** * The further properties on the fixtures *)

Section FurtherFixtures.
Local Existing Instance elements_order.

Lemma basic_columns_distinct : NoDup (Py.columns basic_df).
Proof.
  apply NoDup_cons. split; [|apply NoDup_singleton].
  rewrite list_elem_of_singleton. discriminate.
Qed.

Lemma basic_consistent : consistent basic_df.
Proof. reflexivity. Qed.

Lemma strict_list_is_exact_match_witness :
  (["Price"; "Brand"] ≡ₚ Py.columns basic_df ∧ NoDup ["Price"; "Brand"])
  ∧ _check_columns basic_df (CList ["Price"; "Brand"]) true = Returns tt
  ∧ ["Price"; "Brand"] ≡ₚ Py.columns basic_df.
Proof.
  assert (["Price"; "Brand"] ≡ₚ Py.columns basic_df) as Hperm by apply perm_swap.
  assert (NoDup ["Price"; "Brand"]) as Hnd.
  { rewrite Hperm. apply basic_columns_distinct. }
  destruct (strict_list_is_exact_match basic_df ["Price"; "Brand"]) as [Hpass Hback].
  split; [by split|]. split; [exact (Hpass Hperm)|].
  exact (Hback Hnd (Hpass Hperm)).
Defined.

Lemma missing_column_precedes_count_witness :
  (¬ ["Brand"; "FooColumn"] ⊆ Py.columns basic_df)
  ∧ ∃ column,
      column ∈ ["Brand"; "FooColumn"] ∧ (column ∉ Py.columns basic_df) ∧
      _check_columns basic_df (CList ["Brand"; "FooColumn"]) true =
        Raises (AssertionError (missing_msg column basic_df)).
Proof.
  assert (¬ ["Brand"; "FooColumn"] ⊆ Py.columns basic_df) as Hnot.
  { intros Hsub. apply (basic_lacks "FooColumn"); [discriminate | discriminate |].
    apply Hsub. rewrite !elem_of_cons. tauto. }
  split; [exact Hnot|].
  exact (missing_column_precedes_count basic_df ["Brand"; "FooColumn"] true Hnot).
Defined.

Lemma strict_dict_is_exact_schema_witness :
  (consistent basic_df ∧ NoDup (Py.columns basic_df)
   ∧ [("Price", "int"); ("Brand", "string")] ≡ₚ dtypes basic_df)
  ∧ _check_columns basic_df (CDict [("Price", "int"); ("Brand", "string")]) true
    = Returns tt.
Proof.
  assert ([("Price", "int"); ("Brand", "string")] ≡ₚ dtypes basic_df) as Hperm
    by apply perm_swap.
  destruct (strict_dict_is_exact_schema basic_df [("Price", "int"); ("Brand", "string")]
              basic_consistent basic_columns_distinct) as [Hpass _].
  split; [|exact (Hpass Hperm)].
  split; [exact basic_consistent|]. split; [exact basic_columns_distinct | exact Hperm].
Defined.

Lemma checker_raises_only_assertions_witness :
  (Py.columns basic_df ⊆ (dtypes basic_df).*1
   ∧ CList ["X"] ≠ CNone
   ∧ _check_columns basic_df (CList ["X"]) true =
       Raises (AssertionError (missing_msg "X" basic_df)))
  ∧ ∃ msg, AssertionError (missing_msg "X" basic_df) = AssertionError msg.
Proof.
  assert (Py.columns basic_df ⊆ (dtypes basic_df).*1) as Hsub by (intros c Hc; exact Hc).
  assert (CList ["X"] ≠ CNone) as Hne by discriminate.
  assert (_check_columns basic_df (CList ["X"]) true =
            Raises (AssertionError (missing_msg "X" basic_df))) as Hraise.
  { by vm_compute. }
  split; [by repeat split|].
  exact (checker_raises_only_assertions basic_df (CList ["X"]) true _ Hsub Hne Hraise).
Defined.

Lemma strict_failure_lists_nothing_witness :
  (len (CList ["Brand"; "Price"; "Brand"]) = Returns 3%nat
   ∧ _check_columns basic_df (CList ["Brand"; "Price"; "Brand"]) false = Returns tt
   ∧ length (Py.columns basic_df) ≠ 3%nat
   ∧ (list_to_set (Py.columns basic_df) : gset string)
       ⊆ list_to_set ["Brand"; "Price"; "Brand"])
  ∧ _check_columns basic_df (CList ["Brand"; "Price"; "Brand"]) true =
      Raises (AssertionError "DataFrame contained unexpected column(s): ").
Proof.
  assert (_check_columns basic_df (CList ["Brand"; "Price"; "Brand"]) false = Returns tt)
    as Hpass by (by vm_compute).
  assert (length (Py.columns basic_df) ≠ 3%nat) as Hne by discriminate.
  assert ((list_to_set (Py.columns basic_df) : gset string)
            ⊆ list_to_set ["Brand"; "Price"; "Brand"]) as Hsub.
  { apply elem_of_subseteq. intros c. rewrite !elem_of_list_to_set. simpl.
    rewrite !elem_of_cons. tauto. }
  split; [by repeat split|].
  exact (strict_failure_lists_nothing basic_df (CList ["Brand"; "Price"; "Brand"]) 3%nat _
           eq_refl eq_refl Hpass Hne Hsub).
Defined.

Lemma empty_specification_checks_nothing_witness :
  truthy (CList []) = false
  ∧ fn_call (df_out (CList []) true identity) [VDataFrame basic_df] ∅ start =
    fn_call (df_out CNone false identity) [VDataFrame basic_df] ∅ start
  ∧ ∃ msg, _check_columns basic_df (CList []) true = Raises (AssertionError msg).
Proof.
  destruct (empty_specification_checks_nothing (CList []) true identity
              [VDataFrame basic_df] ∅ start eq_refl) as (_ & Hout & Hchecker).
  split; [reflexivity|]. split; [exact Hout|].
  apply Hchecker. discriminate.
Defined.

Lemma df_out_checks_after_the_call_witness :
  (fn_call returns_one [] ∅ start = (Returns (VInt 1), start)
   ∧ is_dataframe (VInt 1) = false)
  ∧ fn_call (df_out CNone false returns_one) [] ∅ start =
      (Raises (AssertionError
                 "Wrong return type. Expected spark dataframe, got <class 'int'>"),
       start).
Proof.
  destruct (df_out_checks_after_the_call CNone false returns_one [] ∅ start)
    as (_ & _ & Hwrong & _).
  split; [by split|].
  exact (Hwrong (VInt 1) start eq_refl eq_refl).
Defined.

Lemma df_out_over_df_log_rejects_witness :
  (∃ w',
     fn_call (df_log None false test_fn) [VDataFrame basic_df] ∅ start = (Returns VNone, w')
     ∧ fn_call (df_out CNone false (df_log None false test_fn))
         [VDataFrame basic_df] ∅ start =
       (Raises (AssertionError
                  "Wrong return type. Expected spark dataframe, got <class 'NoneType'>"),
        w')).
Proof.
  destruct (df_out_over_df_log_rejects None false CNone false test_fn
              [VDataFrame basic_df] ∅ start) as [_ Hreturns].
  eexists. split; [reflexivity|].
  exact (Hreturns VNone _ eq_refl).
Defined.

Lemma describe_df_format_witness :
  (Forall (λ s, plain s = true) (Py.columns basic_df)
   ∧ Forall (λ s, plain s = true) (dtypes basic_df).*2)
  ∧ _describe_df basic_df true =
      "columns: ['Brand', 'Price'] with dtypes ['string', 'int']".
Proof.
  assert (Forall (λ s, plain s = true) (Py.columns basic_df)) as Hcols.
  { repeat constructor. }
  assert (Forall (λ s, plain s = true) (dtypes basic_df).*2) as Hdtypes.
  { repeat constructor. }
  split; [by split|].
  exact (describe_df_format basic_df true Hcols (λ _, Hdtypes)).
Defined.

Lemma loose_dict_check_by_schema_witness :
  (consistent basic_df ∧ NoDup (Py.columns basic_df))
  ∧ (_check_columns basic_df (CDict [("Price", "int")]) false = Returns tt
     ↔ [("Price", "int")] ⊆ dtypes basic_df).
Proof.
  split; [split; [exact basic_consistent | exact basic_columns_distinct]|].
  exact (loose_dict_check_by_schema basic_df [("Price", "int")]
           basic_consistent basic_columns_distinct).
Defined.

Lemma duplicate_column_checked_against_last_witness :
  (dtypes joined_df = [("id", "int")] ++ ("id", "string") :: []
   ∧ ("id" ∉ ([] : list (string * string)).*1)
   ∧ "id" ∈ Py.columns joined_df)
  ∧ (_check_columns joined_df (CDict [("id", "int")]) false = Returns tt
     ↔ "string" = "int").
Proof.
  assert ("id" ∉ ([] : list (string * string)).*1) as Hafter by apply not_elem_of_nil.
  assert ("id" ∈ Py.columns joined_df) as Hin by (apply elem_of_cons; by left).
  split; [by repeat split|].
  exact (duplicate_column_checked_against_last joined_df [("id", "int")] "id" "string" []
           "int" eq_refl Hafter Hin).
Defined.

End FurtherFixtures.
